(** * Tenant resolution middleware (src/middlewares/tenantResolver.js)

    A shallow embedding of the three functions of the tenant resolver:
    [extractTenantDomain], [resolveTenant] and [validateTenantAccess],
    of the controllers and middlewares around them, and of the JavaScript
    string primitives they rely on.

    JavaScript values are modelled by the small type [JS.value]
    (undefined, null, strings), which covers what a header of an incoming
    request can hold; a character is a code unit below 256, as in the
    headers Node hands over.  Operations that raise a TypeError in
    JavaScript return [JS.TypeError] in the completion monad.  The effects
    of the middleware (the directory query, the assignment of req.tenant,
    the calls of tenantContext.run and of next) are the constructors of the
    type [handler], which [exec] runs against a tenant directory; the
    directory may be out of reach, in which case its queries reject.
    The subdomain of a query is cast as the tenant schema
    (models/tenant.model.js) declares it, with trim: true.
    The calls of console.log are not modelled. *)

From Stdlib Require Import String Ascii List Bool Arith Lia.
Import ListNotations.
Local Open Scope string_scope.
Local Open Scope bool_scope.

(** ** JavaScript values and string primitives *)

Module JS.

Inductive value : Type :=
| Undefined
| Null
| Str (s : string).

(** ToBoolean: undefined, null and the empty string are falsy. *)
Definition truthy (v : value) : bool :=
  match v with
  | Str s => negb (s =? "")
  | Undefined | Null => false
  end.


(** [a === b] *)
Definition strict_eq (a b : value) : bool :=
  match a, b with
  | Undefined, Undefined => true
  | Null, Null => true
  | Str s, Str t => s =? t
  | _, _ => false
  end.

(** Result of evaluating an expression: a value, or a thrown TypeError. *)
Inductive completion (A : Type) : Type :=
| Normal (a : A)
| TypeError.
Arguments Normal {A} a.
Arguments TypeError {A}.

Definition bind {A B : Type} (c : completion A) (k : A -> completion B)
  : completion B :=
  match c with
  | Normal a => k a
  | TypeError => TypeError
  end.

(** String.prototype.split with a one-character separator, the only
    form the resolver uses: the string is scanned once, [cur] holding the
    piece read since the last separator. *)
Fixpoint split_from (sep : ascii) (cur s : string) : list string :=
  match s with
  | "" => [cur]
  | String c s' =>
      if Ascii.eqb c sep then cur :: split_from sep "" s'
      else split_from sep (cur ++ String c "") s'
  end.

Definition split (sep : ascii) (s : string) : list string :=
  split_from sep "" s.

(** String.prototype.includes: [needle] occurs somewhere in [s]. *)
Fixpoint includes (needle s : string) : bool :=
  prefix needle s ||
  match s with
  | "" => false
  | String _ s' => includes needle s'
  end.

(** String.prototype.startsWith *)
Definition startsWith (s p : string) : bool := prefix p s.

(** String.prototype.trim: the white space at both ends is removed; among
    the characters of code 0 to 255 these are tab to carriage return, the
    space and the no-break space. *)
Definition isWhiteSpace (a : ascii) : bool :=
  let n := nat_of_ascii a in
  (((9 <=? n) && (n <=? 13)) || (n =? 32) || (n =? 160))%nat.

Fixpoint trimStart (s : string) : string :=
  match s with
  | "" => ""
  | String a s' => if isWhiteSpace a then trimStart s' else s
  end.

Fixpoint trimEnd (s : string) : string :=
  match s with
  | "" => ""
  | String a s' =>
      match trimEnd s' with
      | "" => if isWhiteSpace a then "" else String a ""
      | kept => String a kept
      end
  end.

Definition trim (s : string) : string := trimEnd (trimStart s).

(** [arr[i]]: undefined when out of range. *)
Definition index (arr : list string) (i : nat) : value :=
  match nth_error arr i with
  | Some s => Str s
  | None => Undefined
  end.

(** Method calls on a value: a TypeError unless the receiver is a string. *)
Definition call_split (recv : value) (sep : ascii) : completion (list string) :=
  match recv with
  | Str s => Normal (split sep s)
  | Undefined | Null => TypeError
  end.

Definition call_includes (recv : value) (needle : string) : completion bool :=
  match recv with
  | Str s => Normal (includes needle s)
  | Undefined | Null => TypeError
  end.

End JS.

Import JS.

Notation "x <- c ;; k" := (JS.bind c (fun x => k))
  (at level 61, c at next level, right associativity).

(** [a || b]: [b] is evaluated only when [a] is falsy. *)
Definition or_else (a : value) (b : completion value) : completion value :=
  if truthy a then Normal a else b.

(** [a && b] on conditions: [b] is evaluated only when [a] is true. *)
Definition and_also (a b : completion bool) : completion bool :=
  x <- a ;; if x then b else Normal false.

(** ** Domain extractor *)

(** The hosts that select super-admin mode (lines 13 and 18-20). *)
Definition isSuperadminDomain (domain : value) : bool :=
  (strict_eq domain (Str "localhost") || strict_eq domain (Str "127.0.0.1"))
  || (strict_eq domain (Str "www.landscape360.com")
      || strict_eq domain (Str "landscape360.com")
      || strict_eq domain (Str "delxn.club")
      || strict_eq domain (Str "www.delxn.club")
      || strict_eq domain (Str "backend-rochin-landscaping.onrender.com")).

Definition extractTenantDomain (host : value) : completion value :=
  if negb (truthy host) then Normal Null
  else
    hostParts <- call_split host ":" ;;
    let domain := index hostParts 0 in
    if isSuperadminDomain domain then Normal Null
    else
      isComputerName <- and_also (call_includes domain "-")
                                 (hasDot <- call_includes domain "." ;;
                                  Normal (negb hasDot)) ;;
      if isComputerName then Normal domain
      else
        parts <- call_split domain "." ;;
        if (3 <=? List.length parts)%nat
           && negb (strict_eq (index parts 0) (Str "www"))
        then Normal (index parts 0)
        else Normal domain.

(** ** Data model *)

(** A document identifier; [toString] gives its hexadecimal form. *)
Record ObjectId : Type := { hex : string }.

Definition toString (id : ObjectId) : string := hex id.

Record Subscription : Type := { status : value }.

(** A tenant document, with the fields the resolver reads. *)
Record Tenant : Type := {
  _id : ObjectId;
  name : string;
  subdomain : string;
  subscription : option Subscription
}.

(** The object given to tenantContext.run: [{}] or [{ tenantId, tenant }]. *)
Record Store : Type := {
  tenantId : option ObjectId;
  tenant : option Tenant
}.

Definition emptyStore : Store := {| tenantId := None; tenant := None |}.

Record ErrorResponse : Type := {
  message : string;
  statusCode : nat
}.

Record Headers : Type := {
  host : value;
  x_tenant_domain : value;
  x_tenant_subdomain : value
}.

Record User : Type := {
  role : value;
  user_tenantId : option ObjectId
}.

Record Request : Type := {
  headers : Headers;
  path : string;
  user : option User
}.

(** ** Effects of a middleware *)

(** What an async middleware does, in order: it may await the directory
    query and continue with its answer, assign req.tenant, and it ends by
    calling tenantContext.run(store, next), next(), next(err), or by
    throwing.  An awaited query that rejects ends the run there: the
    promise of the middleware rejects with it. *)
Inductive handler : Type :=
| AwaitFindOne (subdomainFilter : value) (k : option Tenant -> handler)
| AssignReqTenant (t : Tenant) (k : handler)
| ContextRun (store : Store)
| Next
| NextError (err : ErrorResponse)
| Throws.

Inductive event : Type :=
| Query (subdomainFilter : value)
| ReqTenantSet (t : Tenant)
| Published (store : Store)
| NextCalled
| NextCalledWith (err : ErrorResponse)
| Thrown
| Rejected.

(** The tenant directory as a run finds it: its documents, or a database
    out of reach, whose queries reject. *)
Inductive Directory : Type :=
| Reachable (documents : list Tenant)
| Unreachable.

(** The value of a filter on subdomain as Mongoose casts it: the schema
    declares the path with trim: true, so a string is trimmed. *)
Definition castSubdomain (v : value) : value :=
  match v with
  | Str s => Str (trim s)
  | Undefined | Null => v
  end.

(** Tenant.findOne({ subdomain: v }) on the documents of a reachable
    directory: the first document whose subdomain is the cast value. *)
Definition findOne (documents : list Tenant) (v : value) : option Tenant :=
  find (fun t => strict_eq (Str (subdomain t)) (castSubdomain v)) documents.

Fixpoint exec (db : Directory) (h : handler) : list event :=
  match h with
  | AwaitFindOne v k =>
      Query v ::
      match db with
      | Reachable documents => exec db (k (findOne documents v))
      | Unreachable => [Rejected]
      end
  | AssignReqTenant t k => ReqTenantSet t :: exec db k
  | ContextRun store => [Published store]
  | Next => [NextCalled]
  | NextError err => [NextCalledWith err]
  | Throws => [Thrown]
  end.

(** String(v), as a template literal computes it. *)
Definition stringOf (v : value) : string :=
  match v with
  | Undefined => "undefined"
  | Null => "null"
  | Str s => s
  end.

(** ** Tenant resolver *)

(** Line 48: [headerSubdomain || (headerDomain ? extractTenantDomain(headerDomain) : null)] *)
Definition resolvedFromHeader (hs : Headers) : completion value :=
  let headerDomain := x_tenant_domain hs in
  let headerSubdomain := x_tenant_subdomain hs in
  or_else headerSubdomain
    (if truthy headerDomain then extractTenantDomain headerDomain
     else Normal Null).

(** Line 49: [resolvedFromHeader || extractTenantDomain(req.headers.host)] *)
Definition tenantDomain (hs : Headers) : completion value :=
  fromHeader <- resolvedFromHeader hs ;;
  or_else fromHeader (extractTenantDomain (host hs)).

Definition isAdminPath (p : string) : bool :=
  startsWith p "/api/v1/admin" || startsWith p "/api/v1/super-admin".

(** [tenant.subscription?.status] *)
Definition subscriptionStatus (t : Tenant) : value :=
  match subscription t with
  | Some sub => status sub
  | None => Undefined
  end.

Definition tenantNotFound (key : value) : ErrorResponse :=
  {| message := "Tenant not found for domain: " ++ stringOf key;
     statusCode := 404 |}.

Definition tenantInactive : ErrorResponse :=
  {| message := "Tenant account is inactive"; statusCode := 403 |}.

Definition resolveTenant (req : Request) : handler :=
  match tenantDomain (headers req) with
  | TypeError => Throws
  | Normal key =>
      if negb (truthy key) || isAdminPath (path req)
      then ContextRun emptyStore
      else
        AwaitFindOne key (fun found =>
          match found with
          | None => NextError (tenantNotFound key)
          | Some t =>
              AssignReqTenant t
                (if strict_eq (subscriptionStatus t) (Str "inactive")
                 then NextError tenantInactive
                 else ContextRun {| tenantId := Some (_id t); tenant := Some t |})
          end)
  end.

(** ** Tenant access validator *)

Definition accessDenied : ErrorResponse :=
  {| message := "Access denied: User does not belong to this tenant";
     statusCode := 403 |}.

(** [req.user?.role] *)
Definition userRole (u : option User) : value :=
  match u with
  | Some usr => role usr
  | None => Undefined
  end.

(** [id?.toString()] *)
Definition optToString (id : option ObjectId) : value :=
  match id with
  | Some i => Str (toString i)
  | None => Undefined
  end.

(** [id.toString()]: a TypeError when [id] is undefined. *)
Definition callToString (id : option ObjectId) : completion value :=
  match id with
  | Some i => Normal (Str (toString i))
  | None => TypeError
  end.

(** [store?.tenantId], where [store] is the result of
    tenantContext.getStore(): [None] outside of any tenantContext.run. *)
Definition storeTenantId (store : option Store) : option ObjectId :=
  match store with
  | Some st => tenantId st
  | None => None
  end.

(** Line 93:
    [req.user && req.user.tenantId?.toString() !== store.tenantId.toString()] *)
Definition belongsElsewhere (req : Request) (store : option Store) : completion bool :=
  match user req with
  | None => Normal false
  | Some usr =>
      storeId <- callToString (storeTenantId store) ;;
      Normal (negb (strict_eq (optToString (user_tenantId usr)) storeId))
  end.

Definition validateTenantAccess (req : Request) (store : option Store) : handler :=
  if strict_eq (userRole (user req)) (Str "superAdmin") then Next
  else
    match storeTenantId store with
    | None => Next
    | Some _ =>
        match belongsElsewhere req store with
        | TypeError => Throws
        | Normal true => NextError accessDenied
        | Normal false => Next
        end
    end.

(** ** Controllers that read the context or write the directory

    The controllers of controllers/tenant.controller.js and
    controllers/super-admin.controller.js are functions of the directory:
    they return the directory they leave behind and their reply.  An
    identifier taken from req.params.id is given in its canonical
    hexadecimal form. *)

Definition sameId (a b : ObjectId) : bool := toString a =? toString b.

(** Tenant.findById(id) *)
Definition findById (directory : list Tenant) (id : ObjectId) : option Tenant :=
  find (fun t => sameId (_id t) id) directory.

(** The write of one document: the first document that carries [id] is
    replaced by its image under [f]. *)
Fixpoint updateById (id : ObjectId) (f : Tenant -> Tenant) (directory : list Tenant)
  : list Tenant :=
  match directory with
  | [] => []
  | t :: rest =>
      if sameId (_id t) id then f t :: rest
      else t :: updateById id f rest
  end.

(** [subscription.status] set to [s], the rest of the document kept. *)
Definition setStatus (s : value) (t : Tenant) : Tenant :=
  {| _id := _id t;
     name := name t;
     subdomain := subdomain t;
     subscription := Some {| status := s |} |}.

(** The projection [.select('-owner -subscription')]. *)
Definition withoutSubscription (t : Tenant) : Tenant :=
  {| _id := _id t;
     name := name t;
     subdomain := subdomain t;
     subscription := None |}.

Record Body : Type := {
  success : bool;
  data : option Tenant;
  note : option string
}.

(** How a controller ends: res.status(code).json(body), next(err), or an
    exception. *)
Inductive reply : Type :=
| Json (code : nat) (body : Body)
| Forwarded (err : ErrorResponse)
| Raised.

Definition notFoundWithId (id : ObjectId) : ErrorResponse :=
  {| message := "Tenant not found with id of " ++ toString id;
     statusCode := 404 |}.

(** getTenantInfo (tenant.controller.js, lines 9-34), with the result of
    tenantContext.getStore(); the first component lists the identifiers
    looked up in the directory. *)
Definition getTenantInfo (store : option Store) (directory : list Tenant)
  : list ObjectId * reply :=
  match storeTenantId store with
  | None =>
      ([], Json 200 {| success := true; data := None;
                       note := Some "Superadmin domain - no tenant context" |})
  | Some tid =>
      match findById directory tid with
      | None => ([tid], Forwarded {| message := "Tenant not found";
                                     statusCode := 404 |})
      | Some t =>
          ([tid], Json 200 {| success := true;
                              data := Some (withoutSubscription t);
                              note := None |})
      end
  end.

Definition invalidStatus : ErrorResponse :=
  {| message := "Invalid status. Must be active, inactive, or trialing";
     statusCode := 400 |}.

(** updateTenantStatus (tenant.controller.js, lines 172-193), with
    req.body.status and req.params.id; tenant.save() is taken to write the
    document back. *)
Definition updateTenantStatus (newStatus : value) (id : ObjectId)
  (directory : list Tenant) : list Tenant * reply :=
  if negb (existsb (strict_eq newStatus)
             [Str "active"; Str "inactive"; Str "trialing"])
  then (directory, Forwarded invalidStatus)
  else
    match findById directory id with
    | None => (directory, Forwarded (notFoundWithId id))
    | Some t =>
        match subscription t with
        | None => (directory, Raised)
        | Some _ =>
            (updateById id (fun _ => setStatus newStatus t) directory,
             Json 200 {| success := true;
                         data := Some (setStatus newStatus t);
                         note := Some ("Tenant status updated to "
                                       ++ stringOf newStatus) |})
        end
    end.

(** Tenant.findByIdAndUpdate(id, { 'subscription.status': s }, { new: true }) *)
Definition findByIdAndUpdateStatus (id : ObjectId) (s : string)
  (directory : list Tenant) : list Tenant * option Tenant :=
  match findById directory id with
  | None => (directory, None)
  | Some t =>
      (updateById id (setStatus (Str s)) directory, Some (setStatus (Str s) t))
  end.

Definition replyUpdated (id : ObjectId) (updated : option Tenant) : reply :=
  match updated with
  | None => Forwarded (notFoundWithId id)
  | Some t => Json 200 {| success := true; data := Some t; note := None |}
  end.

(** suspendTenant (super-admin.controller.js, lines 336-351) *)
Definition suspendTenant (id : ObjectId) (directory : list Tenant)
  : list Tenant * reply :=
  let (after, updated) := findByIdAndUpdateStatus id "suspended" directory in
  (after, replyUpdated id updated).

(** activateTenant (super-admin.controller.js, lines 356-371) *)
Definition activateTenant (id : ObjectId) (directory : list Tenant)
  : list Tenant * reply :=
  let (after, updated) := findByIdAndUpdateStatus id "active" directory in
  (after, replyUpdated id updated).

(** What a write of the status keeps. *)
Definition keepsRouting (id : ObjectId) (before after : list Tenant) : Prop :=
  map _id after = map _id before
  /\ map subdomain after = map subdomain before
  /\ (forall t, In t after -> _id t <> id -> In t before).

(** ** The first middleware of server.js (lines 30-44)

    res.getHeader gives a string, a number, an array of strings, or
    undefined ([None]). *)

Inductive headerValue : Type :=
| HString (s : string)
| HNumber (n : nat)
| HArray (items : list string).

Definition headerTruthy (v : option headerValue) : bool :=
  match v with
  | None => false
  | Some (HString s) => negb (s =? "")
  | Some (HNumber n) => negb (n =? 0)%nat
  | Some (HArray _) => true
  end.

(** The response headers the middleware touches. *)
Record ResponseHeaders : Type := {
  vary : option headerValue;
  allowCredentials : option headerValue;
  allowOrigin : option headerValue;
  cacheControl : option headerValue
}.

(** Lines 32-37: the Vary header once the request has an origin. *)
Definition varyWithOrigin (existingVary : option headerValue) : option headerValue :=
  if negb (headerTruthy existingVary) then Some (HString "Origin")
  else
    match existingVary with
    | Some (HString v) =>
        if negb (includes "Origin" v) then Some (HString (v ++ ", Origin"))
        else existingVary
    | _ => existingVary
    end.

Definition originSafetyNet (origin : value) (res : ResponseHeaders) : ResponseHeaders :=
  let res' :=
    if truthy origin then
      {| vary := varyWithOrigin (vary res);
         allowCredentials := Some (HString "true");
         allowOrigin := Some (HString (stringOf origin));
         cacheControl := cacheControl res |}
    else res in
  {| vary := vary res';
     allowCredentials := allowCredentials res';
     allowOrigin := allowOrigin res';
     cacheControl := Some (HString "no-store") |}.

(** ** isAdminOrLocal of utils/tenantUrl.js (lines 18-28) *)

(** toLowerCase on the characters of code 0 to 255: the letters A to Z and
    the accented capitals of Latin-1 move by 32. *)
Definition lowerChar (a : ascii) : ascii :=
  let n := nat_of_ascii a in
  if ((65 <=? n) && (n <=? 90))%nat
     || ((192 <=? n) && (n <=? 222) && negb (n =? 215))%nat
  then ascii_of_nat (n + 32)
  else a.

Fixpoint toLowerCase (s : string) : string :=
  match s with
  | "" => ""
  | String a s' => String (lowerChar a) (toLowerCase s')
  end.

Definition call_toLowerCase (recv : value) : completion string :=
  match recv with
  | Str s => Normal (toLowerCase s)
  | Undefined | Null => TypeError
  end.

Definition isAdminOrLocal (hostArg : value) : completion bool :=
  if negb (truthy hostArg) then Normal true
  else
    hostParts <- call_split hostArg ":" ;;
    h <- call_toLowerCase (index hostParts 0) ;;
    Normal ((h =? "localhost") || (h =? "127.0.0.1")
            || (h =? "www.landscape360.com") || (h =? "landscape360.com")
            || (h =? "delxn.club") || (h =? "www.delxn.club")
            || (h =? "backend-rochin-landscaping.onrender.com")
            || (h =? "backend-rochin-landscaping-beta.vercel.app")).

(** ** The extractor on characters, and the specification's reading *)

(** The characters of [s] before the first [c] (all of [s] if there is none). *)
Fixpoint spec_before (c : ascii) (s : string) : string :=
  match s with
  | "" => ""
  | String a s' => if Ascii.eqb a c then "" else String a (spec_before c s')
  end.

Fixpoint spec_count (c : ascii) (s : string) : nat :=
  match s with
  | "" => 0
  | String a s' => (if Ascii.eqb a c then 1 else 0) + spec_count c s'
  end.

Definition spec_contains (c : ascii) (s : string) : bool :=
  negb (spec_count c s =? 0)%nat.

(** Reserved admin and platform hostnames. *)
Definition spec_reservedHosts : list string :=
  [ "localhost"; "127.0.0.1"; "www.landscape360.com"; "landscape360.com";
    "delxn.club"; "www.delxn.club"; "backend-rochin-landscaping.onrender.com" ].

(** The host up to its first colon, which is what host.split(':')[0]
    leaves of it. *)
Definition hostBeforeColon (h : string) : string := spec_before ":" h.

(** A host has one more label than it has dots. *)
Definition spec_labelCount (h : string) : nat := S (spec_count "." h).

Definition spec_firstLabel (h : string) : string := spec_before "." h.

(** The case analysis of section 4.1 on a host without port: reserved
    hosts give null, a hyphenated host without dot is kept, a host of three
    labels or more whose first label is not www gives its first label, any
    other host is kept. *)
Definition spec_classify (d : string) : value :=
  if existsb (String.eqb d) spec_reservedHosts then Null
  else if spec_contains "-" d && negb (spec_contains "." d) then Str d
  else if (3 <=? spec_labelCount d)%nat && negb (spec_firstLabel d =? "www")
       then Str (spec_firstLabel d)
  else Str d.

(** The case analysis applied to the host cut at its first colon. *)
Definition keyByCases (h : string) : value := spec_classify (hostBeforeColon h).





(** A header is present when the request carries it, as a string. *)
Definition spec_present (v : value) : bool :=
  match v with
  | Str _ => true
  | Undefined | Null => false
  end.

(** Step 2 of section 4.2, read as a strict precedence on the presence of
    the headers. *)
Definition spec_resolutionKey (hs : Headers) : completion value :=
  if spec_present (x_tenant_subdomain hs) then Normal (x_tenant_subdomain hs)
  else if spec_present (x_tenant_domain hs)
       then extractTenantDomain (x_tenant_domain hs)
       else extractTenantDomain (host hs).

(** The response the client sees. *)
Record ClientResponse : Type := {
  httpStatus : nat;
  publicMessage : string
}.

(** Modelled from the spec: the error-handling middleware
    (middlewares/error.js), which turns the error handed to next into the
    response the client sees, is not among the sources.  Sections 6 and 7:
    the error is translated into a client-visible response that carries
    its status, and a TenantNotFound error is surfaced as a 404 with the
    offending key redacted from the public-facing message. *)
Definition spec_surface (err : ErrorResponse) : ClientResponse :=
  {| httpStatus := statusCode err;
     publicMessage :=
       if (statusCode err =? 404)%nat
          && startsWith (message err) "Tenant not found for domain: "
       then "Tenant not found for domain: [redacted]"
       else message err |}.

(** What the resolver does once it decides to query the directory. *)
Definition lookupTrace (db : Directory) (key : value) : list event :=
  Query key ::
  match db with
  | Unreachable => [Rejected]
  | Reachable documents =>
      match findOne documents key with
      | None => [NextCalledWith (tenantNotFound key)]
      | Some t =>
          ReqTenantSet t ::
          (if strict_eq (subscriptionStatus t) (Str "inactive")
           then [NextCalledWith tenantInactive]
           else [Published {| tenantId := Some (_id t); tenant := Some t |}])
      end
  end.

(** ** Sample requests and directories *)

Definition headers_beta_over_acme : Headers :=
  {| host := Str "acme.example.com";
     x_tenant_domain := Undefined;
     x_tenant_subdomain := Str "beta" |}.

Definition headers_domain_localhost : Headers :=
  {| host := Str "acme.example.com";
     x_tenant_domain := Str "localhost";
     x_tenant_subdomain := Undefined |}.

Definition noTenantHeaders (h : string) : Headers :=
  {| host := Str h; x_tenant_domain := Undefined; x_tenant_subdomain := Undefined |}.

Definition acme (st : value) : Tenant :=
  {| _id := {| hex := "64b7f0c2a1d3e4f5a6b7c8d9" |};
     name := "Acme Landscaping";
     subdomain := "acme";
     subscription := Some {| status := st |} |}.

Definition beta : Tenant :=
  {| _id := {| hex := "64b7f0c2a1d3e4f5a6b7c8da" |};
     name := "Beta Gardens";
     subdomain := "beta";
     subscription := None |}.

Definition req_acme_services : Request :=
  {| headers := noTenantHeaders "acme.example.com";
     path := "/api/v1/services";
     user := None |}.

Definition req_acme_super_admin : Request :=
  {| headers := noTenantHeaders "acme.example.com";
     path := "/api/v1/super-admin/tenants";
     user := None |}.

Definition req_ghost : Request :=
  {| headers := noTenantHeaders "ghost.example.com";
     path := "/api/v1/services";
     user := None |}.

Definition acmeStore : Store :=
  {| tenantId := Some (_id (acme (Str "active")));
     tenant := Some (acme (Str "active")) |}.

Definition asUser (r : string) (home : option ObjectId) : Request :=
  {| headers := noTenantHeaders "acme.example.com";
     path := "/api/v1/customers";
     user := Some {| role := Str r; user_tenantId := home |} |}.

Definition req_localhost_services : Request :=
  {| headers := noTenantHeaders "localhost:5000";
     path := "/api/v1/services";
     user := None |}.

(** A host whose first label ends with a space: the key is the label with
    its space. *)
Definition req_acme_padded : Request :=
  {| headers := noTenantHeaders "acme .example.com";
     path := "/api/v1/services";
     user := None |}.

(** ** Facts about the string primitives *)

Section StringFacts.

Variable sep : ascii.

Lemma append_empty_r (s : string) : s ++ "" = s.
Proof. induction s as [|a s IH]; simpl; [reflexivity | now rewrite IH]. Qed.

Lemma append_snoc (s t : string) (a : ascii) :
  (s ++ String a "") ++ t = s ++ String a t.
Proof. induction s as [|b s IH]; simpl; [reflexivity | now rewrite IH]. Qed.

(** The first piece of a split is what precedes the first separator. *)
Lemma split_from_first (s cur : string) :
  nth_error (split_from sep cur s) 0 = Some (cur ++ spec_before sep s).
Proof.
  revert cur; induction s as [|a s IH]; intros cur; cbn [split_from spec_before].
  - simpl. now rewrite append_empty_r.
  - destruct (Ascii.eqb a sep).
    + simpl. now rewrite append_empty_r.
    + rewrite IH. now rewrite append_snoc.
Qed.

(** A split has one piece more than the string has separators. *)
Lemma split_from_length (s cur : string) :
  List.length (split_from sep cur s) = S (spec_count sep s).
Proof.
  revert cur; induction s as [|a s IH]; intros cur; cbn [split_from spec_count].
  - reflexivity.
  - destruct (Ascii.eqb a sep); cbn [List.length]; now rewrite IH.
Qed.

Lemma index_split_0 (s : string) :
  index (split sep s) 0 = Str (spec_before sep s).
Proof. unfold index, split. now rewrite split_from_first. Qed.

Lemma length_split (s : string) :
  List.length (split sep s) = S (spec_count sep s).
Proof. apply split_from_length. Qed.

(** Looking for a one-character needle is looking for that character. *)
Lemma includes_char (s : string) :
  includes (String sep "") s = spec_contains sep s.
Proof.
  unfold spec_contains.
  induction s as [|a s IH]; simpl; [reflexivity|].
  destruct (ascii_dec sep a) as [->|Hne].
  - rewrite Ascii.eqb_refl. now destruct s.
  - assert (Ascii.eqb a sep = false) as ->
      by (apply Ascii.eqb_neq; congruence).
    simpl. exact IH.
Qed.

End StringFacts.

(** ** Facts about the domain extractor *)

(** Dropping what follows the first colon removes a port suffix, and
    leaves a host without colon as it is. *)
Lemma spec_before_absent (c : ascii) (s : string) :
  spec_contains c s = false -> spec_before c s = s.
Proof.
  unfold spec_contains. induction s as [|a s IH]; simpl; [reflexivity|].
  destruct (Ascii.eqb a c); simpl; [discriminate|].
  intros H. now rewrite IH.
Qed.

Lemma hostBeforeColon_suffix (hostname port : string) :
  spec_contains ":" hostname = false ->
  hostBeforeColon (hostname ++ String ":" port) = hostname.
Proof.
  unfold hostBeforeColon, spec_contains.
  induction hostname as [|a s IH]; simpl; [reflexivity|].
  destruct (Ascii.eqb a ":"); simpl; [discriminate|].
  intros H. now rewrite IH.
Qed.

Lemma isSuperadminDomain_reserved (d : string) :
  isSuperadminDomain (Str d) = existsb (String.eqb d) spec_reservedHosts.
Proof.
  unfold isSuperadminDomain, spec_reservedHosts.
  cbn [existsb strict_eq].
  now rewrite ?orb_false_r, ?orb_assoc.
Qed.

Lemma truthy_Str (h : string) : h <> "" -> truthy (Str h) = true.
Proof.
  intros Hne. simpl. destruct (String.eqb_spec h ""); [contradiction | reflexivity].
Qed.

(** On a non-empty string the extractor computes the contract's case
    analysis. *)
Lemma extractTenantDomain_refines (h : string) :
  h <> "" -> extractTenantDomain (Str h) = Normal (keyByCases h).
Proof.
  intros Hne.
  unfold extractTenantDomain, keyByCases, spec_classify, hostBeforeColon.
  rewrite (truthy_Str h Hne).
  cbn [negb call_split JS.bind].
  rewrite index_split_0, isSuperadminDomain_reserved.
  set (d := spec_before ":" h).
  destruct (existsb (String.eqb d) spec_reservedHosts); [reflexivity|].
  unfold and_also. cbn [call_includes JS.bind].
  rewrite !includes_char.
  destruct (spec_contains "-" d); cbn [JS.bind andb].
  - destruct (spec_contains "." d); cbn [negb]; [|reflexivity].
    cbn [call_split JS.bind].
    rewrite length_split, index_split_0.
    unfold spec_labelCount, spec_firstLabel. cbn [strict_eq].
    now destruct (_ && _).
  - cbn [call_split JS.bind].
    rewrite length_split, index_split_0.
    unfold spec_labelCount, spec_firstLabel. cbn [strict_eq].
    now destruct (_ && _).
Qed.

(** The extractor on any value: absent hosts give null. *)
Lemma extractTenantDomain_value (host : value) :
  extractTenantDomain host =
  Normal match host with
         | Str h => if h =? "" then Null else keyByCases h
         | Undefined | Null => Null
         end.
Proof.
  destruct host as [| |h]; try reflexivity.
  destruct (String.eqb_spec h "") as [->|Hne]; [reflexivity|].
  now apply extractTenantDomain_refines.
Qed.

Lemma extractTenantDomain_returns (host : value) :
  exists v, extractTenantDomain host = Normal v.
Proof. rewrite extractTenantDomain_value. eauto. Qed.

Lemma reserved_dec (d : string) :
  existsb (String.eqb d) spec_reservedHosts = true <-> In d spec_reservedHosts.
Proof.
  rewrite existsb_exists. split.
  - intros [x [Hin Heq]]. apply String.eqb_eq in Heq. now subst.
  - intros Hin. exists d. split; [assumption | apply String.eqb_refl].
Qed.






(** C8 (as the code has it): the extractor never throws and always returns
    null or a string; it returns null on undefined, on null and on the
    empty string.  Other strings, well formed or not, go through the case
    analysis. *)
Theorem extractTenantDomain_total :
  (forall host : value,
      exists v, extractTenantDomain host = Normal v
                /\ (v = Null \/ exists s, v = Str s))
  /\ extractTenantDomain Undefined = Normal Null
  /\ extractTenantDomain Null = Normal Null
  /\ extractTenantDomain (Str "") = Normal Null.
Proof.
  split; [|repeat split].
  intros host. rewrite extractTenantDomain_value.
  eexists; split; [reflexivity|].
  destruct host as [| |h]; auto.
  destruct (h =? ""); auto.
  unfold keyByCases, spec_classify.
  repeat match goal with |- context [if ?b then _ else _] => destruct b end;
    eauto.
Qed.

(** C8, counterexample: a URL in place of a host is not answered by null;
    the scheme before the first colon becomes the key. *)
Lemma extractTenantDomain_malformed_not_null :
  extractTenantDomain (Str "http://acme.example.com") = Normal (Str "http")
  /\ extractTenantDomain (Str "http://acme.example.com") <> Normal Null.
Proof. split; [reflexivity | discriminate]. Qed.

(** ** Facts about the resolver *)

Lemma strict_eq_Str (v : value) (s : string) :
  strict_eq v (Str s) = true <-> v = Str s.
Proof.
  destruct v as [| |t]; simpl; try (split; discriminate).
  rewrite String.eqb_eq. split; congruence.
Qed.

(** The key computation never throws. *)
Lemma tenantDomain_returns (hs : Headers) :
  exists key, tenantDomain hs = Normal key.
Proof.
  unfold tenantDomain, resolvedFromHeader, or_else.
  destruct (truthy (x_tenant_subdomain hs)) eqn:Hsub; cbn [JS.bind].
  - rewrite Hsub. eauto.
  - destruct (truthy (x_tenant_domain hs)).
    + destruct (extractTenantDomain_returns (x_tenant_domain hs)) as [v ->].
      cbn [JS.bind]. destruct (truthy v); eauto.
      apply extractTenantDomain_returns.
    + cbn [JS.bind truthy]. apply extractTenantDomain_returns.
Qed.

Lemma exec_resolveTenant_lookup (req : Request) (db : Directory) (key : value) :
  isAdminPath (path req) = false ->
  tenantDomain (headers req) = Normal key ->
  truthy key = true ->
  exec db (resolveTenant req) = lookupTrace db key.
Proof.
  intros Hpath Hkey Htruthy.
  unfold resolveTenant, lookupTrace. rewrite Hkey, Hpath, Htruthy.
  cbn [negb orb exec]. destruct db as [documents|]; [|reflexivity].
  destruct (findOne documents key) as [t|]; [|reflexivity].
  cbn [exec]. now destruct (strict_eq (subscriptionStatus t) (Str "inactive")).
Qed.

Lemma exec_resolveTenant_no_lookup (req : Request) (key : value) :
  tenantDomain (headers req) = Normal key ->
  truthy key = false \/ isAdminPath (path req) = true ->
  resolveTenant req = ContextRun emptyStore.
Proof.
  intros Hkey Hcond. unfold resolveTenant. rewrite Hkey.
  destruct Hcond as [-> | ->]; [reflexivity | now rewrite orb_true_r].
Qed.

(** The status read on line 67 is inactive exactly for a tenant whose
    subscription holds that status. *)
Lemma inactive_status (t : Tenant) :
  strict_eq (subscriptionStatus t) (Str "inactive") = true
  <-> subscription t = Some {| status := Str "inactive" |}.
Proof.
  rewrite strict_eq_Str. unfold subscriptionStatus.
  destruct (subscription t) as [[st]|]; cbn [status].
  - split; [now intros -> | intros H; now injection H].
  - split; discriminate.
Qed.

(** The run of the resolver on documents in which the key finds [t]. *)
Lemma exec_resolveTenant_found
  (req : Request) (documents : list Tenant) (key : value) (t : Tenant) :
  isAdminPath (path req) = false ->
  tenantDomain (headers req) = Normal key ->
  truthy key = true ->
  findOne documents key = Some t ->
  exec (Reachable documents) (resolveTenant req)
  = [Query key; ReqTenantSet t;
     if strict_eq (subscriptionStatus t) (Str "inactive")
     then NextCalledWith tenantInactive
     else Published {| tenantId := Some (_id t); tenant := Some t |}].
Proof.
  intros Hpath Hkey Htruthy Hfound.
  rewrite (exec_resolveTenant_lookup req _ key Hpath Hkey Htruthy).
  unfold lookupTrace. rewrite Hfound.
  now destruct (strict_eq (subscriptionStatus t) (Str "inactive")).
Qed.

(** C3 (as the code has it): a non-empty X-Tenant-Subdomain header is the
    key, whatever the other headers say; otherwise a non-empty
    X-Tenant-Domain header whose extraction gives a non-empty key provides
    it; in every other case, also when X-Tenant-Domain is present but names
    a reserved host, the key is extracted from the Host header. *)
Theorem tenantDomain_precedence (hs : Headers) :
  (truthy (x_tenant_subdomain hs) = true ->
   tenantDomain hs = Normal (x_tenant_subdomain hs))
  /\ (forall key,
      truthy (x_tenant_subdomain hs) = false ->
      truthy (x_tenant_domain hs) = true ->
      extractTenantDomain (x_tenant_domain hs) = Normal key ->
      truthy key = true ->
      tenantDomain hs = Normal key)
  /\ (forall key,
      truthy (x_tenant_subdomain hs) = false ->
      truthy (x_tenant_domain hs) = true ->
      extractTenantDomain (x_tenant_domain hs) = Normal key ->
      truthy key = false ->
      tenantDomain hs = extractTenantDomain (host hs))
  /\ (truthy (x_tenant_subdomain hs) = false ->
      truthy (x_tenant_domain hs) = false ->
      tenantDomain hs = extractTenantDomain (host hs)).
Proof.
  unfold tenantDomain, resolvedFromHeader, or_else.
  repeat split.
  - intros Hsub. rewrite Hsub. cbn [JS.bind]. now rewrite Hsub.
  - intros key -> -> -> Hkey. cbn [JS.bind]. now rewrite Hkey.
  - intros key -> -> -> Hkey. cbn [JS.bind]. now rewrite Hkey.
  - intros -> ->. reflexivity.
Qed.

Lemma tenantDomain_precedence_witness :
  tenantDomain headers_beta_over_acme = Normal (Str "beta")
  /\ extractTenantDomain (host headers_beta_over_acme) = Normal (Str "acme").
Proof.
  split; [|reflexivity].
  apply (proj1 (tenantDomain_precedence headers_beta_over_acme)).
  reflexivity.
Defined.

(** C3, counterexample: with X-Tenant-Domain: localhost present, strict
    precedence gives the null key of that header, while the code falls back
    to the Host header and resolves acme. *)
Lemma tenantDomain_not_strict_precedence :
  spec_resolutionKey headers_domain_localhost = Normal Null
  /\ tenantDomain headers_domain_localhost = Normal (Str "acme")
  /\ tenantDomain headers_domain_localhost
     <> spec_resolutionKey headers_domain_localhost.
Proof. split; [reflexivity | split; [reflexivity | discriminate]]. Qed.

(** C4: a request whose path starts with /api/v1/admin or with
    /api/v1/super-admin gets the empty context: the handler is the single
    call tenantContext.run({}, next), with no directory query and no error,
    whatever the headers are, and whatever the directory holds or whether
    it can be reached. *)
Theorem resolveTenant_admin_path (req : Request) (db : Directory) :
  startsWith (path req) "/api/v1/admin" = true
  \/ startsWith (path req) "/api/v1/super-admin" = true ->
  resolveTenant req = ContextRun emptyStore
  /\ exec db (resolveTenant req) = [Published emptyStore].
Proof.
  intros Hprefix.
  assert (isAdminPath (path req) = true) as Hadmin.
  { unfold isAdminPath. destruct Hprefix as [-> | ->];
      [reflexivity | apply orb_true_r]. }
  destruct (tenantDomain_returns (headers req)) as [key Hkey].
  assert (resolveTenant req = ContextRun emptyStore) as ->
    by (apply (exec_resolveTenant_no_lookup req key); auto).
  split; reflexivity.
Qed.

Lemma resolveTenant_admin_path_witness :
  exec (Reachable [acme (Str "inactive")]) (resolveTenant req_acme_super_admin)
  = [Published emptyStore].
Proof.
  apply (resolveTenant_admin_path req_acme_super_admin
           (Reachable [acme (Str "inactive")])).
  right. reflexivity.
Defined.

(** C1: when the key of a request is looked up (the path is not under an
    administrative prefix, the key is not empty) and matches a tenant whose
    subscription status is inactive, the resolver sets req.tenant and calls
    next with the error of status 403, which ends its run:
    tenantContext.run is not called, so no context is published, and
    next() is not called, so the chain of handlers is not continued. *)
Theorem inactive_tenant_rejected
  (req : Request) (directory : list Tenant) (key : value) (t : Tenant) :
  isAdminPath (path req) = false ->
  tenantDomain (headers req) = Normal key ->
  truthy key = true ->
  findOne directory key = Some t ->
  subscription t = Some {| status := Str "inactive" |} ->
  exec (Reachable directory) (resolveTenant req)
  = [Query key; ReqTenantSet t; NextCalledWith tenantInactive]
  /\ statusCode tenantInactive = 403
  /\ (forall store,
      ~ In (Published store) (exec (Reachable directory) (resolveTenant req)))
  /\ ~ In NextCalled (exec (Reachable directory) (resolveTenant req)).
Proof.
  intros Hpath Hkey Htruthy Hfound Hstatus.
  rewrite (exec_resolveTenant_found req directory key t Hpath Hkey Htruthy Hfound).
  apply inactive_status in Hstatus. rewrite Hstatus.
  split; [reflexivity | split; [reflexivity | split]].
  - intros store [H | [H | [H | []]]]; discriminate.
  - intros [H | [H | [H | []]]]; discriminate.
Qed.

Lemma inactive_tenant_rejected_witness :
  exec (Reachable [acme (Str "inactive")]) (resolveTenant req_acme_services)
  = [Query (Str "acme"); ReqTenantSet (acme (Str "inactive"));
     NextCalledWith tenantInactive].
Proof.
  apply (inactive_tenant_rejected req_acme_services [acme (Str "inactive")]
           (Str "acme") (acme (Str "inactive")));
    reflexivity.
Defined.

Lemma prefix_refl (s : string) : prefix s s = true.
Proof.
  induction s as [|a s IH]; simpl; [reflexivity|].
  destruct (ascii_dec a a); [assumption | contradiction].
Qed.

(** A string occurs in whatever ends with it. *)
Lemma includes_suffix (p s : string) : includes s (p ++ s) = true.
Proof.
  induction p as [|a p IH].
  - destruct s; simpl; [reflexivity|].
    destruct (ascii_dec a a); [|contradiction].
    now rewrite prefix_refl.
  - cbn [append includes]. rewrite IH. apply orb_true_r.
Qed.

Lemma prefix_append (p s : string) : prefix p (p ++ s) = true.
Proof.
  induction p as [|a p IH]; simpl; [now destruct s|].
  destruct (ascii_dec a a); [assumption | contradiction].
Qed.

Lemma findOne_Some (documents : list Tenant) (k : string) (t : Tenant) :
  findOne documents (Str k) = Some t -> In t documents /\ subdomain t = trim k.
Proof.
  unfold findOne. intros H. apply find_some in H as [Hin Heq].
  split; [assumption|]. cbn [castSubdomain strict_eq] in Heq.
  now apply String.eqb_eq in Heq.
Qed.

Lemma findOne_None (documents : list Tenant) (k : string) :
  findOne documents (Str k) = None
  <-> (forall t, In t documents -> subdomain t <> trim k).
Proof.
  unfold findOne. split.
  - intros H t Hin Heq.
    pose proof (find_none _ _ H t Hin) as Hf.
    cbn [castSubdomain strict_eq] in Hf.
    rewrite Heq, String.eqb_refl in Hf. discriminate.
  - intros H. destruct (find _ documents) as [t|] eqn:Hfind; [|reflexivity].
    apply find_some in Hfind as [Hin Heq].
    cbn [castSubdomain strict_eq] in Heq.
    apply String.eqb_eq in Heq. now apply H in Hin.
Qed.

(** C2: when the key of a request is looked up (the path is not under an
    administrative prefix, the key is not empty) and no tenant of the
    directory has the key, trimmed as the schema casts it, as its
    subdomain, the resolver calls next with the error of status 404; the
    response the client gets for it has status 404 and a message from
    which the key is redacted. *)
Theorem resolveTenant_not_found
  (req : Request) (directory : list Tenant) (key : string) :
  isAdminPath (path req) = false ->
  tenantDomain (headers req) = Normal (Str key) ->
  key <> "" ->
  (forall t, In t directory -> subdomain t <> trim key) ->
  exec (Reachable directory) (resolveTenant req)
  = [Query (Str key); NextCalledWith (tenantNotFound (Str key))]
  /\ statusCode (tenantNotFound (Str key)) = 404
  /\ spec_surface (tenantNotFound (Str key))
     = {| httpStatus := 404;
          publicMessage := "Tenant not found for domain: [redacted]" |}.
Proof.
  intros Hpath Hkey Hne Hnone. apply findOne_None in Hnone.
  rewrite (exec_resolveTenant_lookup req _ (Str key) Hpath Hkey
             (truthy_Str key Hne)).
  unfold lookupTrace. rewrite Hnone.
  split; [reflexivity | split; [reflexivity|]].
  unfold spec_surface, tenantNotFound, startsWith.
  cbn [statusCode message stringOf]. now rewrite prefix_append.
Qed.

Lemma resolveTenant_not_found_witness :
  exec (Reachable [acme (Str "active")]) (resolveTenant req_ghost)
  = [Query (Str "ghost"); NextCalledWith (tenantNotFound (Str "ghost"))]
  /\ publicMessage (spec_surface (tenantNotFound (Str "ghost")))
     = "Tenant not found for domain: [redacted]".
Proof.
  destruct (resolveTenant_not_found req_ghost [acme (Str "active")] "ghost")
    as [Htrace [_ Hsurface]]; try solve [reflexivity | discriminate].
  - intros t [<- | []]. discriminate.
  - split; [exact Htrace | now rewrite Hsurface].
Defined.

(** C9: when the directory query finds a tenant, the resolver raises the
    inactive error if and only if the subscription of that tenant holds
    exactly the status inactive; with the status suspended, trialing or
    active, or without subscription, it publishes the context of that
    tenant. *)
Theorem resolveTenant_inactive_iff
  (req : Request) (directory : list Tenant) (key : value) (t : Tenant) :
  isAdminPath (path req) = false ->
  tenantDomain (headers req) = Normal key ->
  truthy key = true ->
  findOne directory key = Some t ->
  (In (NextCalledWith tenantInactive)
      (exec (Reachable directory) (resolveTenant req))
   <-> subscription t = Some {| status := Str "inactive" |})
  /\ (subscription t <> Some {| status := Str "inactive" |} ->
      exec (Reachable directory) (resolveTenant req)
      = [Query key; ReqTenantSet t;
         Published {| tenantId := Some (_id t); tenant := Some t |}])
  /\ (forall s,
      In s ["suspended"; "trialing"; "active"] ->
      subscription t = Some {| status := Str s |} ->
      exec (Reachable directory) (resolveTenant req)
      = [Query key; ReqTenantSet t;
         Published {| tenantId := Some (_id t); tenant := Some t |}])
  /\ (subscription t = None ->
      exec (Reachable directory) (resolveTenant req)
      = [Query key; ReqTenantSet t;
         Published {| tenantId := Some (_id t); tenant := Some t |}]).
Proof.
  intros Hpath Hkey Htruthy Hfound.
  rewrite (exec_resolveTenant_found req directory key t Hpath Hkey Htruthy Hfound).
  pose proof (inactive_status t) as Hiff.
  destruct (strict_eq (subscriptionStatus t) (Str "inactive")).
  - assert (subscription t = Some {| status := Str "inactive" |}) as Hst
      by now apply Hiff.
    split; [|split; [|split]].
    + split; [auto | intros _; simpl; auto].
    + intros Hne. contradiction.
    + intros s Hs Hsub. rewrite Hsub in Hst. injection Hst as ->.
      destruct Hs as [H | [H | [H | []]]]; discriminate.
    + intros Hsub. rewrite Hsub in Hst. discriminate.
  - assert (subscription t <> Some {| status := Str "inactive" |}) as Hst
      by (intros H; apply Hiff in H; discriminate).
    split; [|split; [|split]]; try reflexivity.
    split; [|contradiction].
    intros [H | [H | [H | []]]]; discriminate.
Qed.

Lemma resolveTenant_inactive_iff_witness :
  In (NextCalledWith tenantInactive)
     (exec (Reachable [beta; acme (Str "inactive")]) (resolveTenant req_acme_services))
  /\ exec (Reachable [beta; acme (Str "suspended")]) (resolveTenant req_acme_services)
     = [Query (Str "acme"); ReqTenantSet (acme (Str "suspended"));
        Published {| tenantId := Some (_id (acme (Str "suspended")));
                     tenant := Some (acme (Str "suspended")) |}].
Proof.
  split.
  - apply (proj1 (resolveTenant_inactive_iff req_acme_services
                    [beta; acme (Str "inactive")] (Str "acme")
                    (acme (Str "inactive")) eq_refl eq_refl eq_refl eq_refl)).
    reflexivity.
  - apply (proj1 (proj2 (resolveTenant_inactive_iff req_acme_services
                    [beta; acme (Str "suspended")] (Str "acme")
                    (acme (Str "suspended")) eq_refl eq_refl eq_refl eq_refl))).
    discriminate.
Defined.

(** ** Facts about the access validator *)

Lemma toString_inj (i j : ObjectId) : toString i = toString j -> i = j.
Proof. destruct i, j. simpl. congruence. Qed.

Lemma sameTenant_iff (home : option ObjectId) (tid : ObjectId) :
  strict_eq (optToString home) (Str (toString tid)) = true <-> home = Some tid.
Proof.
  rewrite strict_eq_Str. destruct home as [i|]; simpl.
  - split; intros H.
    + injection H as H. apply toString_inj in H. now subst.
    + now injection H as ->.
  - split; discriminate.
Qed.

(** The validator once the role is not superAdmin and the store names a
    tenant. *)
Lemma validateTenantAccess_scoped (req : Request) (store : option Store) (tid : ObjectId) :
  strict_eq (userRole (user req)) (Str "superAdmin") = false ->
  storeTenantId store = Some tid ->
  validateTenantAccess req store =
  match user req with
  | None => Next
  | Some usr =>
      if strict_eq (optToString (user_tenantId usr)) (Str (toString tid))
      then Next else NextError accessDenied
  end.
Proof.
  intros Hrole Hstore. unfold validateTenantAccess, belongsElsewhere.
  rewrite Hrole, Hstore.
  destruct (user req) as [usr|]; [|reflexivity].
  cbn [callToString JS.bind].
  now destruct (strict_eq (optToString (user_tenantId usr)) (Str (toString tid))).
Qed.

(** C6: the validator passes for a superAdmin whatever the resolved tenant
    is, passes when the context has no tenant, and otherwise, for an
    authenticated principal, passes if and only if the tenantId of the
    principal is the tenantId of the context; on a mismatch it calls next
    with the 403 access-denied error. *)
Theorem validateTenantAccess_cases (req : Request) (store : option Store) :
  (userRole (user req) = Str "superAdmin" ->
   validateTenantAccess req store = Next)
  /\ (storeTenantId store = None -> validateTenantAccess req store = Next)
  /\ (forall usr tid,
      user req = Some usr ->
      role usr <> Str "superAdmin" ->
      storeTenantId store = Some tid ->
      (validateTenantAccess req store = Next <-> user_tenantId usr = Some tid)
      /\ (user_tenantId usr <> Some tid ->
          validateTenantAccess req store = NextError accessDenied)
      /\ statusCode accessDenied = 403).
Proof.
  split; [|split].
  - intros Hrole. unfold validateTenantAccess. rewrite Hrole. reflexivity.
  - intros Hstore. unfold validateTenantAccess. rewrite Hstore.
    now destruct (strict_eq _ _).
  - intros usr tid Huser Hrole Hstore.
    assert (strict_eq (userRole (user req)) (Str "superAdmin") = false) as Hr.
    { rewrite Huser. cbn [userRole].
      destruct (strict_eq (role usr) (Str "superAdmin")) eqn:E; [|reflexivity].
      apply strict_eq_Str in E. contradiction. }
    rewrite (validateTenantAccess_scoped req store tid Hr Hstore), Huser.
    pose proof (sameTenant_iff (user_tenantId usr) tid) as Hiff.
    destruct (strict_eq (optToString (user_tenantId usr)) (Str (toString tid))).
    + assert (user_tenantId usr = Some tid) by now apply Hiff.
      repeat split; auto. intros; contradiction.
    + assert (user_tenantId usr <> Some tid)
        by (intros H; apply Hiff in H; discriminate).
      repeat split; auto; try discriminate. intros; contradiction.
Qed.

Lemma validateTenantAccess_cases_witness :
  validateTenantAccess (asUser "superAdmin" (Some (_id beta))) (Some acmeStore) = Next
  /\ validateTenantAccess (asUser "customer" (Some (_id beta))) (Some acmeStore)
     = NextError accessDenied
  /\ validateTenantAccess (asUser "customer" (Some (_id (acme (Str "active")))))
       (Some acmeStore) = Next.
Proof.
  split; [|split].
  - apply (proj1 (validateTenantAccess_cases
                    (asUser "superAdmin" (Some (_id beta))) (Some acmeStore))).
    reflexivity.
  - eapply (proj2 (proj2 (validateTenantAccess_cases
                    (asUser "customer" (Some (_id beta))) (Some acmeStore))));
      solve [reflexivity | discriminate].
  - eapply (proj2 (proj2 (validateTenantAccess_cases
                    (asUser "customer" (Some (_id (acme (Str "active")))))
                    (Some acmeStore))));
      solve [reflexivity | discriminate].
Defined.

(** C10: without an authenticated principal the validator passes for every
    context, also one that names a tenant; it never throws, and the only
    error it raises is the access-denied error, which needs a principal
    whose tenantId is not the tenantId of the context. *)
Theorem validateTenantAccess_unauthenticated (req : Request) (store : option Store) :
  (user req = None -> validateTenantAccess req store = Next)
  /\ validateTenantAccess req store <> Throws
  /\ (forall err,
      validateTenantAccess req store = NextError err ->
      err = accessDenied
      /\ exists usr tid,
          user req = Some usr
          /\ storeTenantId store = Some tid
          /\ user_tenantId usr <> Some tid).
Proof.
  unfold validateTenantAccess.
  destruct (strict_eq (userRole (user req)) (Str "superAdmin")) eqn:Hrole.
  { repeat split; try discriminate. }
  destruct (storeTenantId store) as [tid|] eqn:Hstore.
  2:{ repeat split; try discriminate. }
  fold (validateTenantAccess req store).
  pose proof (validateTenantAccess_scoped req store tid Hrole Hstore) as Heq.
  unfold validateTenantAccess in Heq. rewrite Hrole, Hstore in Heq.
  rewrite Heq. clear Heq.
  destruct (user req) as [usr|].
  2:{ repeat split; try discriminate. }
  pose proof (sameTenant_iff (user_tenantId usr) tid) as Hiff.
  destruct (strict_eq (optToString (user_tenantId usr)) (Str (toString tid))).
  - repeat split; try discriminate.
  - split; [discriminate | split; [discriminate|]].
    intros err Herr. injection Herr as <-. split; [reflexivity|].
    exists usr, tid. repeat split.
    intros H. apply Hiff in H. discriminate.
Qed.

Lemma validateTenantAccess_unauthenticated_witness :
  validateTenantAccess req_acme_services (Some acmeStore) = Next.
Proof.
  apply (proj1 (validateTenantAccess_unauthenticated
                  req_acme_services (Some acmeStore))).
  reflexivity.
Defined.

(** ** Further properties of the domain extractor *)

Section BeforeFacts.

Variables c c' : ascii.

Lemma spec_count_before (s : string) : spec_count c (spec_before c s) = 0.
Proof.
  induction s as [|a s IH]; simpl; [reflexivity|].
  destruct (Ascii.eqb a c) eqn:E; simpl; [reflexivity|].
  now rewrite E.
Qed.

Lemma spec_count_before_le (s : string) :
  spec_count c (spec_before c' s) <= spec_count c s.
Proof.
  induction s as [|a s IH]; simpl; [lia|].
  destruct (Ascii.eqb a c'); simpl; lia.
Qed.

Lemma spec_contains_before (s : string) :
  spec_contains c s = false -> spec_contains c (spec_before c' s) = false.
Proof.
  unfold spec_contains. intros H.
  pose proof (spec_count_before_le s) as Hle.
  destruct (spec_count c s); [|discriminate].
  now replace (spec_count c (spec_before c' s)) with 0 by lia.
Qed.

Lemma spec_contains_before_same (s : string) :
  spec_contains c (spec_before c s) = false.
Proof. unfold spec_contains. now rewrite spec_count_before. Qed.

(** A piece cut off at a separator, and cut again, is still a leading piece
    of the string. *)
Lemma prefix_before_before (s : string) :
  prefix (spec_before c (spec_before c' s)) s = true.
Proof.
  induction s as [|a s IH]; simpl; [reflexivity|].
  destruct (Ascii.eqb a c'); simpl; [reflexivity|].
  destruct (Ascii.eqb a c); simpl; [reflexivity|].
  destruct (ascii_dec a a); [assumption | contradiction].
Qed.

Lemma prefix_before (s : string) : prefix (spec_before c s) s = true.
Proof.
  induction s as [|a s IH]; simpl; [reflexivity|].
  destruct (Ascii.eqb a c); simpl; [reflexivity|].
  destruct (ascii_dec a a); [assumption | contradiction].
Qed.

End BeforeFacts.

(** The string results of the contract are the host without port, or its
    first label. *)
Lemma keyByCases_Str (h k : string) :
  keyByCases h = Str k ->
  k = hostBeforeColon h \/ k = spec_firstLabel (hostBeforeColon h).
Proof.
  unfold keyByCases, spec_classify.
  repeat match goal with
         | |- context [if ?b then _ else _] => destruct b
         end; intros H; try discriminate; injection H as <-; auto.
Qed.

Lemma extractTenantDomain_Str_inv (host : value) (k : string) :
  extractTenantDomain host = Normal (Str k) ->
  exists h, host = Str h /\ h <> "" /\ keyByCases h = Str k.
Proof.
  rewrite extractTenantDomain_value.
  destruct host as [| |h]; try discriminate.
  destruct (String.eqb_spec h "") as [->|Hne]; [discriminate|].
  intros H. injection H as H. eauto.
Qed.

(** X1: a key returned by the extractor is a leading piece of the host it
    was given, and it never contains a colon. *)
Theorem extractTenantDomain_key_is_prefix (h k : string) :
  extractTenantDomain (Str h) = Normal (Str k) ->
  startsWith h k = true /\ includes ":" k = false.
Proof.
  intros H.
  apply extractTenantDomain_Str_inv in H as [h' [Heq [_ Hkey]]].
  injection Heq as <-.
  rewrite includes_char. unfold startsWith.
  apply keyByCases_Str in Hkey as [-> | ->];
    unfold hostBeforeColon, spec_firstLabel.
  - split; [apply prefix_before | apply spec_contains_before_same].
  - split; [apply prefix_before_before|].
    apply spec_contains_before, spec_contains_before_same.
Qed.

Lemma extractTenantDomain_key_is_prefix_witness :
  startsWith "acme.example.com:8080" "acme" = true
  /\ includes ":" "acme" = false.
Proof.
  apply (extractTenantDomain_key_is_prefix "acme.example.com:8080" "acme").
  reflexivity.
Defined.

(** X2: the port does not matter: a non-empty host name without colon gives
    the same result with any port suffix as without one. *)
Theorem extractTenantDomain_ignores_port (hostname port : string) :
  hostname <> "" ->
  includes ":" hostname = false ->
  extractTenantDomain (Str (hostname ++ String ":" port))
  = extractTenantDomain (Str hostname).
Proof.
  intros Hne Hcolon. rewrite includes_char in Hcolon.
  rewrite !extractTenantDomain_refines; try assumption.
  - unfold keyByCases, spec_classify.
    rewrite (hostBeforeColon_suffix hostname port Hcolon).
    unfold hostBeforeColon.
    rewrite (spec_before_absent ":" hostname Hcolon).
    reflexivity.
  - destruct hostname; [contradiction | discriminate].
Qed.

Lemma extractTenantDomain_ignores_port_witness :
  extractTenantDomain (Str ("acme.example.com" ++ String ":" "8080"))
  = extractTenantDomain (Str "acme.example.com").
Proof.
  apply (extractTenantDomain_ignores_port "acme.example.com" "8080").
  - discriminate.
  - reflexivity.
Defined.

(** A name without colon and without dot is its own key, unless it is a
    reserved host. *)
Lemma keyByCases_label (k : string) :
  spec_contains ":" k = false ->
  spec_contains "." k = false ->
  keyByCases k
  = if existsb (String.eqb k) spec_reservedHosts then Null else Str k.
Proof.
  intros Hcolon Hdot. unfold keyByCases, spec_classify, hostBeforeColon.
  rewrite (spec_before_absent ":" k Hcolon), Hdot.
  destruct (existsb (String.eqb k) spec_reservedHosts); [reflexivity|].
  destruct (spec_contains "-" k); [reflexivity|]. cbn [andb negb].
  unfold spec_labelCount. unfold spec_contains in Hdot.
  destruct (spec_count "." k); [reflexivity | discriminate].
Qed.

(** X3: extracting again from a key the extractor returned gives the same
    key, except that an empty key or a key that is itself a reserved host
    name gives null. *)
Theorem extractTenantDomain_stable (host : value) (k : string) :
  extractTenantDomain host = Normal (Str k) ->
  extractTenantDomain (Str k)
  = Normal (if (k =? "") || existsb (String.eqb k) spec_reservedHosts
            then Null else Str k).
Proof.
  intros H.
  apply extractTenantDomain_Str_inv in H as [h [_ [_ Hkey]]].
  rewrite extractTenantDomain_value. f_equal.
  destruct (k =? ""); [reflexivity|]. cbn [orb].
  unfold keyByCases, spec_classify in Hkey.
  set (d := hostBeforeColon h) in Hkey.
  assert (spec_contains ":" d = false) as Hd
    by apply spec_contains_before_same.
  destruct (existsb (String.eqb d) spec_reservedHosts) eqn:Hres;
    [discriminate|].
  destruct (spec_contains "-" d && negb (spec_contains "." d)) eqn:Hname.
  - injection Hkey as <-.
    apply andb_true_iff in Hname as [_ Hdot]. apply negb_true_iff in Hdot.
    now rewrite (keyByCases_label d Hd Hdot), Hres.
  - destruct ((3 <=? spec_labelCount d)%nat
              && negb (spec_firstLabel d =? "www")) eqn:Hlabels;
      injection Hkey as <-.
    + apply keyByCases_label.
      * now apply spec_contains_before.
      * apply spec_contains_before_same.
    + unfold keyByCases, spec_classify, hostBeforeColon.
      rewrite (spec_before_absent ":" d Hd).
      now rewrite Hres, Hname, Hlabels.
Qed.

Lemma extractTenantDomain_stable_witness :
  extractTenantDomain (Str "localhost") = Normal Null
  /\ extractTenantDomain (Str "acme") = Normal (Str "acme").
Proof.
  split.
  - apply (extractTenantDomain_stable (Str "localhost.example.com") "localhost").
    reflexivity.
  - apply (extractTenantDomain_stable (Str "acme.example.com:8080") "acme").
    reflexivity.
Defined.

(** ** Further properties of the resolver *)

(** Every run of the resolver: the empty context when there is no key or
    the path is administrative, the lookup otherwise. *)
Lemma exec_resolveTenant (req : Request) (db : Directory) :
  exists key,
    tenantDomain (headers req) = Normal key
    /\ exec db (resolveTenant req)
       = if negb (truthy key) || isAdminPath (path req)
         then [Published emptyStore]
         else lookupTrace db key.
Proof.
  destruct (tenantDomain_returns (headers req)) as [key Hkey].
  exists key. split; [assumption|].
  destruct (truthy key) eqn:Ht; cbn [negb orb].
  - destruct (isAdminPath (path req)) eqn:Hp.
    + rewrite (exec_resolveTenant_no_lookup req key); auto.
    + now apply exec_resolveTenant_lookup.
  - rewrite (exec_resolveTenant_no_lookup req key); auto.
Qed.

Lemma truthy_Str_inv (v : value) :
  truthy v = true -> exists k, v = Str k /\ k <> "".
Proof.
  destruct v as [| |k]; simpl; try discriminate.
  intros H. exists k. split; [reflexivity|]. intros ->. discriminate.
Qed.

(** X4: the resolver raises no TypeError.  A run either publishes the empty
    context without touching the directory, or queries the directory once,
    with a non-empty string, and then ends in exactly one of: the rejection
    of that query, when the directory cannot be reached; the 404 error; the
    403 error after setting req.tenant; the publication of the context of
    the tenant found. *)
Theorem resolveTenant_runs (req : Request) (db : Directory) :
  exec db (resolveTenant req) = [Published emptyStore]
  \/ exists k,
      k <> ""
      /\ ((db = Unreachable
           /\ exec db (resolveTenant req) = [Query (Str k); Rejected])
          \/ (exists documents,
                 db = Reachable documents
                 /\ (exec db (resolveTenant req)
                     = [Query (Str k); NextCalledWith (tenantNotFound (Str k))]
                     \/ (exists t,
                            exec db (resolveTenant req)
                            = [Query (Str k); ReqTenantSet t;
                               NextCalledWith tenantInactive])
                     \/ (exists t,
                            exec db (resolveTenant req)
                            = [Query (Str k); ReqTenantSet t;
                               Published {| tenantId := Some (_id t);
                                            tenant := Some t |}])))).
Proof.
  destruct (exec_resolveTenant req db) as [key [_ ->]].
  destruct (truthy key) eqn:Ht; cbn [negb orb]; [|now left].
  destruct (isAdminPath (path req)); [now left|].
  right. apply truthy_Str_inv in Ht as [k [-> Hne]].
  exists k. split; [assumption|].
  unfold lookupTrace. destruct db as [documents|]; [right | now left].
  exists documents. split; [reflexivity|].
  destruct (findOne documents (Str k)) as [t|]; [|now left].
  right. destruct (strict_eq (subscriptionStatus t) (Str "inactive"));
    [left | right]; now exists t.
Qed.

(** The context a run publishes, traced back to the directory. *)
Lemma published_inv (req : Request) (db : Directory) (store : Store) :
  In (Published store) (exec db (resolveTenant req)) ->
  store = emptyStore
  \/ exists documents t k,
      db = Reachable documents
      /\ store = {| tenantId := Some (_id t); tenant := Some t |}
      /\ isAdminPath (path req) = false
      /\ k <> ""
      /\ tenantDomain (headers req) = Normal (Str k)
      /\ findOne documents (Str k) = Some t
      /\ subscription t <> Some {| status := Str "inactive" |}.
Proof.
  destruct (exec_resolveTenant req db) as [key [Hkey ->]].
  destruct (truthy key) eqn:Ht; cbn [negb orb].
  2:{ intros [H | []]. injection H as <-. now left. }
  destruct (isAdminPath (path req)) eqn:Hp.
  { intros [H | []]. injection H as <-. now left. }
  apply truthy_Str_inv in Ht as [k [-> Hne]].
  unfold lookupTrace. destruct db as [documents|].
  2:{ intros [H | [H | []]]; discriminate. }
  destruct (findOne documents (Str k)) as [t|] eqn:Hfind.
  2:{ intros [H | [H | []]]; discriminate. }
  pose proof (inactive_status t) as Hiff.
  destruct (strict_eq (subscriptionStatus t) (Str "inactive")).
  { intros [H | [H | [H | []]]]; discriminate. }
  intros [H | [H | [H | []]]]; try discriminate.
  injection H as <-. right. exists documents, t, k.
  repeat (split; [assumption || reflexivity|]).
  intros Hs. apply Hiff in Hs. discriminate.
Qed.

(** X5: the resolver publishes the context of a tenant [t] exactly when the
    path is not administrative, the request has a non-empty key, [t] is the
    document the directory returns for that key, and the subscription of
    [t] does not hold the status inactive.  The subdomain of [t] is then
    the key with the white space at its ends removed, as the schema casts
    it. *)
Theorem resolveTenant_published
  (req : Request) (directory : list Tenant) (t : Tenant) :
  (In (Published {| tenantId := Some (_id t); tenant := Some t |})
      (exec (Reachable directory) (resolveTenant req))
   <-> (isAdminPath (path req) = false
        /\ exists k,
            k <> ""
            /\ tenantDomain (headers req) = Normal (Str k)
            /\ findOne directory (Str k) = Some t
            /\ subscription t <> Some {| status := Str "inactive" |}))
  /\ (In (Published {| tenantId := Some (_id t); tenant := Some t |})
         (exec (Reachable directory) (resolveTenant req)) ->
      In t directory
      /\ exists k, tenantDomain (headers req) = Normal (Str k)
                   /\ subdomain t = trim k).
Proof.
  assert (In (Published {| tenantId := Some (_id t); tenant := Some t |})
             (exec (Reachable directory) (resolveTenant req)) ->
          isAdminPath (path req) = false
          /\ exists k,
              k <> ""
              /\ tenantDomain (headers req) = Normal (Str k)
              /\ findOne directory (Str k) = Some t
              /\ subscription t <> Some {| status := Str "inactive" |})
    as Honly.
  { intros Hpub.
    apply published_inv in Hpub
      as [Hempty | [documents [t' [k [Hdb [Hstore [Hpath [Hne [Hkey [Hfind Hst]]]]]]]]]];
      [discriminate|].
    injection Hdb as <-. injection Hstore as _ ->.
    split; [assumption|]. exists k. auto. }
  split; [split; [exact Honly|]|].
  - intros [Hpath [k [Hne [Hkey [Hfind Hst]]]]].
    rewrite (exec_resolveTenant_found req directory (Str k) t Hpath Hkey
               (truthy_Str k Hne) Hfind).
    destruct (strict_eq (subscriptionStatus t) (Str "inactive")) eqn:E.
    + apply inactive_status in E. contradiction.
    + simpl. auto.
  - intros Hpub. destruct (Honly Hpub) as [_ [k [_ [Hkey [Hfind _]]]]].
    apply findOne_Some in Hfind as [Hin Hsub]. eauto.
Qed.

Lemma resolveTenant_published_witness :
  In (Published {| tenantId := Some (_id (acme (Str "trialing")));
                   tenant := Some (acme (Str "trialing")) |})
     (exec (Reachable [beta; acme (Str "trialing")])
           (resolveTenant req_acme_padded)).
Proof.
  apply (proj1 (resolveTenant_published req_acme_padded
                  [beta; acme (Str "trialing")] (acme (Str "trialing")))).
  split; [reflexivity|]. exists "acme ".
  repeat split; discriminate.
Defined.

(** Without tenant headers the key comes from the Host header alone. *)
Lemma tenantDomain_host_only (hs : Headers) :
  truthy (x_tenant_subdomain hs) = false ->
  truthy (x_tenant_domain hs) = false ->
  tenantDomain hs = extractTenantDomain (host hs).
Proof.
  intros Hsub Hdom. unfold tenantDomain, resolvedFromHeader, or_else.
  now rewrite Hsub, Hdom.
Qed.

(** X6: without tenant headers, a request that has no Host header, or whose
    host without port is one of the reserved platform hosts, gets the empty
    context on every path, and the directory is not queried, whether it can
    be reached or not. *)
Theorem resolveTenant_platform_host (req : Request) (db : Directory) :
  truthy (x_tenant_subdomain (headers req)) = false ->
  truthy (x_tenant_domain (headers req)) = false ->
  truthy (host (headers req)) = false
  \/ (exists h, host (headers req) = Str h
                /\ In (hostBeforeColon h) spec_reservedHosts) ->
  resolveTenant req = ContextRun emptyStore
  /\ exec db (resolveTenant req) = [Published emptyStore].
Proof.
  intros Hsub Hdom Hhost.
  assert (tenantDomain (headers req) = Normal Null) as Hkey.
  { rewrite (tenantDomain_host_only _ Hsub Hdom), extractTenantDomain_value.
    destruct Hhost as [Hfalsy | [h [-> Hres]]].
    - destruct (host (headers req)) as [| |h]; try reflexivity.
      simpl in Hfalsy. apply negb_false_iff in Hfalsy. now rewrite Hfalsy.
    - destruct (h =? ""); [reflexivity|].
      unfold keyByCases, spec_classify.
      apply reserved_dec in Hres. now rewrite Hres. }
  assert (resolveTenant req = ContextRun emptyStore) as ->
    by (apply (exec_resolveTenant_no_lookup req Null); auto).
  split; reflexivity.
Qed.

Lemma resolveTenant_platform_host_witness :
  exec (Reachable [acme (Str "active")]) (resolveTenant req_localhost_services)
  = [Published emptyStore].
Proof.
  apply (resolveTenant_platform_host req_localhost_services
           (Reachable [acme (Str "active")]));
    try reflexivity.
  right. exists "localhost:5000". split; [reflexivity|].
  vm_compute. auto.
Defined.

(** X7: on a non-administrative path, with a non-empty key and a directory
    that answers, the resolver raises the 404 error if and only if no
    tenant of the directory has the key, with the white space at its ends
    removed, as its subdomain. *)
Theorem not_found_iff_no_such_subdomain
  (req : Request) (directory : list Tenant) (k : string) :
  isAdminPath (path req) = false ->
  tenantDomain (headers req) = Normal (Str k) ->
  k <> "" ->
  (In (NextCalledWith (tenantNotFound (Str k)))
      (exec (Reachable directory) (resolveTenant req))
   <-> forall t, In t directory -> subdomain t <> trim k).
Proof.
  intros Hpath Hkey Hne.
  rewrite (exec_resolveTenant_lookup req _ (Str k) Hpath Hkey
             (truthy_Str k Hne)).
  rewrite <- findOne_None. unfold lookupTrace.
  destruct (findOne directory (Str k)) as [t|].
  - split; [|discriminate].
    destruct (strict_eq (subscriptionStatus t) (Str "inactive"));
      intros [H | [H | [H | []]]]; discriminate.
  - split; [reflexivity|]. intros _. simpl. auto.
Qed.

Lemma not_found_iff_no_such_subdomain_witness :
  In (NextCalledWith (tenantNotFound (Str "ghost")))
     (exec (Reachable [beta; acme (Str "active")]) (resolveTenant req_ghost)).
Proof.
  apply (not_found_iff_no_such_subdomain req_ghost
           [beta; acme (Str "active")] "ghost");
    try solve [reflexivity | discriminate].
  intros t [<- | [<- | []]]; discriminate.
Defined.

(** X8: isolation through the two middlewares: when the resolver publishes
    a context and the validator then lets a principal that is not
    superAdmin through, the context is empty or it is the context of the
    tenant the principal belongs to; that tenant is the document the
    directory returned for the key of the request, its subdomain is that
    key with the white space at its ends removed, and its subscription does
    not hold the status inactive. *)
Theorem tenant_isolation
  (req : Request) (db : Directory) (store : Store) (usr : User) :
  In (Published store) (exec db (resolveTenant req)) ->
  validateTenantAccess req (Some store) = Next ->
  user req = Some usr ->
  role usr <> Str "superAdmin" ->
  store = emptyStore
  \/ exists documents t k,
      db = Reachable documents
      /\ In t documents
      /\ store = {| tenantId := Some (_id t); tenant := Some t |}
      /\ tenantDomain (headers req) = Normal (Str k)
      /\ findOne documents (Str k) = Some t
      /\ subdomain t = trim k
      /\ subscription t <> Some {| status := Str "inactive" |}
      /\ user_tenantId usr = Some (_id t).
Proof.
  intros Hpub Hpass Huser Hrole.
  apply published_inv in Hpub
    as [-> | [documents [t [k [-> [-> [_ [_ [Hkey [Hfind Hst]]]]]]]]]];
    [now left|].
  right. exists documents, t, k.
  destruct (findOne_Some documents k t Hfind) as [Hin Hsub].
  repeat (split; [assumption || reflexivity|]).
  assert (strict_eq (userRole (user req)) (Str "superAdmin") = false) as Hr.
  { rewrite Huser. cbn [userRole].
    destruct (strict_eq (role usr) (Str "superAdmin")) eqn:E; [|reflexivity].
    apply strict_eq_Str in E. contradiction. }
  rewrite (validateTenantAccess_scoped req
             (Some {| tenantId := Some (_id t); tenant := Some t |})
             (_id t) Hr eq_refl), Huser in Hpass.
  destruct (strict_eq (optToString (user_tenantId usr)) (Str (toString (_id t))))
    eqn:E; [|discriminate].
  now apply sameTenant_iff in E.
Qed.

Lemma tenant_isolation_witness :
  exists t, In t [beta; acme (Str "active")]
            /\ Some (_id (acme (Str "active"))) = Some (_id t).
Proof.
  destruct (tenant_isolation
              (asUser "customer" (Some (_id (acme (Str "active")))))
              (Reachable [beta; acme (Str "active")]) acmeStore
              {| role := Str "customer";
                 user_tenantId := Some (_id (acme (Str "active"))) |})
    as [Hempty | [documents [t [k [Hdb [Hin [_ [_ [_ [_ [_ Hid]]]]]]]]]]];
    try solve [reflexivity | discriminate].
  - simpl. auto.
  - injection Hdb as <-. now exists t.
Defined.

(** ** Properties of the controllers *)

Lemma sameId_refl (id : ObjectId) : sameId id id = true.
Proof. apply String.eqb_refl. Qed.

Lemma sameId_eq (a b : ObjectId) : sameId a b = true <-> a = b.
Proof.
  unfold sameId. rewrite String.eqb_eq. split.
  - apply toString_inj.
  - now intros ->.
Qed.

Lemma findById_Some (directory : list Tenant) (id : ObjectId) (t : Tenant) :
  findById directory id = Some t -> In t directory /\ _id t = id.
Proof.
  unfold findById. intros H. apply find_some in H as [Hin Heq].
  split; [assumption|]. now apply sameId_eq in Heq.
Qed.

(** A document of the directory can be found by its identifier. *)
Lemma findById_In (directory : list Tenant) (t : Tenant) :
  In t directory ->
  exists t', findById directory (_id t) = Some t' /\ _id t' = _id t.
Proof.
  intros Hin. destruct (findById directory (_id t)) as [t'|] eqn:Hfind.
  - exists t'. split; [reflexivity|]. now apply findById_Some in Hfind.
  - unfold findById in Hfind.
    pose proof (find_none _ _ Hfind t Hin) as Hf. cbn beta in Hf.
    now rewrite sameId_refl in Hf.
Qed.

Section UpdateFacts.

Variable id : ObjectId.
Variable f : Tenant -> Tenant.
Hypothesis f_id : forall t, _id (f t) = _id t.
Hypothesis f_subdomain : forall t, subdomain (f t) = subdomain t.

Lemma updateById_ids (directory : list Tenant) :
  map _id (updateById id f directory) = map _id directory.
Proof.
  induction directory as [|t rest IH]; simpl; [reflexivity|].
  destruct (sameId (_id t) id); simpl; [now rewrite f_id | now rewrite IH].
Qed.

Lemma updateById_subdomains (directory : list Tenant) :
  map subdomain (updateById id f directory) = map subdomain directory.
Proof.
  induction directory as [|t rest IH]; simpl; [reflexivity|].
  destruct (sameId (_id t) id); simpl;
    [now rewrite f_subdomain | now rewrite IH].
Qed.

(** Documents that carry another identifier are left as they were. *)
Lemma updateById_others (directory : list Tenant) (t : Tenant) :
  In t (updateById id f directory) -> _id t <> id -> In t directory.
Proof.
  induction directory as [|x rest IH]; simpl; [auto|].
  destruct (sameId (_id x) id) eqn:E; simpl.
  - intros [<- | Hin] Hne; [|auto].
    apply sameId_eq in E. rewrite f_id in Hne. contradiction.
  - intros [<- | Hin] Hne; auto.
Qed.

(** The tenant a key resolves to, when it is the one designated by [id],
    is resolved to its image after the write. *)
Lemma findOne_updateById (directory : list Tenant) (k : string) (t : Tenant) :
  findOne directory (Str k) = Some t ->
  findById directory id = Some t ->
  findOne (updateById id f directory) (Str k) = Some (f t).
Proof.
  unfold findOne, findById. cbn [castSubdomain strict_eq].
  induction directory as [|x rest IH]; simpl; [discriminate|].
  destruct (sameId (_id x) id) eqn:Eid.
  - intros Hone Hid. injection Hid as ->.
    destruct (subdomain t =? trim k) eqn:Esub.
    + simpl. now rewrite f_subdomain, Esub.
    + apply find_some in Hone as [_ Hk]. cbn beta in Hk.
      rewrite Esub in Hk. discriminate.
  - destruct (subdomain x =? trim k) eqn:Esub.
    + intros Hone Hid. injection Hone as ->.
      apply find_some in Hid as [_ Hid]. cbn beta in Hid.
      rewrite Eid in Hid. discriminate.
    + intros Hone Hid. simpl. rewrite Esub. now apply IH.
Qed.

End UpdateFacts.

(** Writing a fixed document at [id] is writing the image of the document
    found there. *)
Lemma updateById_found (id : ObjectId) (g : Tenant -> Tenant)
  (directory : list Tenant) (t : Tenant) :
  findById directory id = Some t ->
  updateById id (fun _ => g t) directory = updateById id g directory.
Proof.
  unfold findById.
  induction directory as [|x rest IH]; simpl; [reflexivity|].
  destruct (sameId (_id x) id).
  - intros H. now injection H as ->.
  - intros H. now rewrite IH.
Qed.

Lemma setStatus_id (s : value) (t : Tenant) : _id (setStatus s t) = _id t.
Proof. reflexivity. Qed.

Lemma setStatus_subdomain (s : value) (t : Tenant) :
  subdomain (setStatus s t) = subdomain t.
Proof. reflexivity. Qed.

(** The directory updateTenantStatus leaves behind. *)
Lemma updateTenantStatus_directory (s : value) (id : ObjectId)
  (directory : list Tenant) :
  fst (updateTenantStatus s id directory) = directory
  \/ fst (updateTenantStatus s id directory)
     = updateById id (setStatus s) directory.
Proof.
  unfold updateTenantStatus.
  destruct (negb _); [now left|].
  destruct (findById directory id) as [t|] eqn:Hfind; [|now left].
  destruct (subscription t); [|now left].
  right. cbn [fst]. now apply (updateById_found id (setStatus s)).
Qed.

Lemma findByIdAndUpdateStatus_directory (id : ObjectId) (s : string)
  (directory : list Tenant) :
  fst (findByIdAndUpdateStatus id s directory) = directory
  \/ fst (findByIdAndUpdateStatus id s directory)
     = updateById id (setStatus (Str s)) directory.
Proof.
  unfold findByIdAndUpdateStatus.
  destruct (findById directory id); [now right | now left].
Qed.

Lemma suspendTenant_directory (id : ObjectId) (directory : list Tenant) :
  fst (suspendTenant id directory)
  = fst (findByIdAndUpdateStatus id "suspended" directory).
Proof.
  unfold suspendTenant. now destruct (findByIdAndUpdateStatus _ _ _).
Qed.

Lemma activateTenant_directory (id : ObjectId) (directory : list Tenant) :
  fst (activateTenant id directory)
  = fst (findByIdAndUpdateStatus id "active" directory).
Proof.
  unfold activateTenant. now destruct (findByIdAndUpdateStatus _ _ _).
Qed.

Lemma keepsRouting_refl (id : ObjectId) (directory : list Tenant) :
  keepsRouting id directory directory.
Proof. repeat split; auto. Qed.

Lemma keepsRouting_update (id : ObjectId) (s : value) (directory : list Tenant) :
  keepsRouting id directory (updateById id (setStatus s) directory).
Proof.
  split; [|split].
  - apply updateById_ids, setStatus_id.
  - apply updateById_subdomains, setStatus_subdomain.
  - intros t. apply updateById_others, setStatus_id.
Qed.

(** X9: the three controllers that write the subscription status
    (updateTenantStatus, suspendTenant, activateTenant) keep the
    identifiers and the subdomains of the directory, in order, and leave
    every document that carries another identifier untouched. *)
Theorem status_writes_keep_routing
  (s : value) (id : ObjectId) (directory : list Tenant) :
  keepsRouting id directory (fst (updateTenantStatus s id directory))
  /\ keepsRouting id directory (fst (suspendTenant id directory))
  /\ keepsRouting id directory (fst (activateTenant id directory)).
Proof.
  split; [|split].
  - destruct (updateTenantStatus_directory s id directory) as [-> | ->];
      [apply keepsRouting_refl | apply keepsRouting_update].
  - rewrite suspendTenant_directory.
    destruct (findByIdAndUpdateStatus_directory id "suspended" directory)
      as [-> | ->]; [apply keepsRouting_refl | apply keepsRouting_update].
  - rewrite activateTenant_directory.
    destruct (findByIdAndUpdateStatus_directory id "active" directory)
      as [-> | ->]; [apply keepsRouting_refl | apply keepsRouting_update].
Qed.

(** X10: updateTenantStatus followed by the resolver.  When a request
    resolves to a tenant with a subscription, and updateTenantStatus sets
    the status of that tenant to active, inactive or trialing, the same
    request then finds the updated tenant: it is rejected with the 403
    error if the new status is inactive, and gets the context of the
    updated tenant otherwise. *)
Theorem updateTenantStatus_then_resolve
  (req : Request) (directory : list Tenant) (k s : string) (t : Tenant) :
  isAdminPath (path req) = false ->
  tenantDomain (headers req) = Normal (Str k) ->
  k <> "" ->
  findOne directory (Str k) = Some t ->
  findById directory (_id t) = Some t ->
  subscription t <> None ->
  In s ["active"; "inactive"; "trialing"] ->
  exec (Reachable (fst (updateTenantStatus (Str s) (_id t) directory)))
       (resolveTenant req)
  = [Query (Str k); ReqTenantSet (setStatus (Str s) t);
     if s =? "inactive" then NextCalledWith tenantInactive
     else Published {| tenantId := Some (_id t);
                       tenant := Some (setStatus (Str s) t) |}].
Proof.
  intros Hpath Hkey Hne Hone Hid Hsub Hs.
  assert (fst (updateTenantStatus (Str s) (_id t) directory)
          = updateById (_id t) (setStatus (Str s)) directory) as ->.
  { unfold updateTenantStatus. rewrite Hid.
    assert (existsb (strict_eq (Str s))
              [Str "active"; Str "inactive"; Str "trialing"] = true) as ->.
    { destruct Hs as [<- | [<- | [<- | []]]]; reflexivity. }
    cbn [negb]. destruct (subscription t); [|contradiction].
    cbn [fst]. now apply (updateById_found (_id t) (setStatus (Str s))). }
  rewrite (exec_resolveTenant_found req _ (Str k) (setStatus (Str s) t)
             Hpath Hkey (truthy_Str k Hne)).
  - reflexivity.
  - apply findOne_updateById; auto.
Qed.

Lemma updateTenantStatus_then_resolve_witness :
  exec (Reachable (fst (updateTenantStatus (Str "inactive")
                          (_id (acme (Str "active")))
                          [beta; acme (Str "active")])))
       (resolveTenant req_acme_services)
  = [Query (Str "acme"); ReqTenantSet (acme (Str "inactive"));
     NextCalledWith tenantInactive].
Proof.
  apply (updateTenantStatus_then_resolve req_acme_services
           [beta; acme (Str "active")] "acme" "inactive" (acme (Str "active")));
    try solve [reflexivity | discriminate].
  simpl. auto.
Defined.

(** X11: suspendTenant and activateTenant followed by the resolver.  When a
    request resolves to a tenant, it still resolves after that tenant has
    been suspended: the status suspended is not the status inactive, and
    the context of the suspended tenant is published.  After
    activateTenant the context of the activated tenant is published,
    whatever the status was before. *)
Theorem suspend_activate_then_resolve
  (req : Request) (directory : list Tenant) (k : string) (t : Tenant) :
  isAdminPath (path req) = false ->
  tenantDomain (headers req) = Normal (Str k) ->
  k <> "" ->
  findOne directory (Str k) = Some t ->
  findById directory (_id t) = Some t ->
  exec (Reachable (fst (suspendTenant (_id t) directory))) (resolveTenant req)
  = [Query (Str k); ReqTenantSet (setStatus (Str "suspended") t);
     Published {| tenantId := Some (_id t);
                  tenant := Some (setStatus (Str "suspended") t) |}]
  /\ exec (Reachable (fst (activateTenant (_id t) directory)))
          (resolveTenant req)
     = [Query (Str k); ReqTenantSet (setStatus (Str "active") t);
        Published {| tenantId := Some (_id t);
                     tenant := Some (setStatus (Str "active") t) |}].
Proof.
  intros Hpath Hkey Hne Hone Hid.
  rewrite suspendTenant_directory, activateTenant_directory.
  unfold findByIdAndUpdateStatus. rewrite Hid. cbn [fst].
  split.
  - apply (exec_resolveTenant_found req _ (Str k)
             (setStatus (Str "suspended") t) Hpath Hkey (truthy_Str k Hne)).
    apply findOne_updateById; auto.
  - apply (exec_resolveTenant_found req _ (Str k)
             (setStatus (Str "active") t) Hpath Hkey (truthy_Str k Hne)).
    apply findOne_updateById; auto.
Qed.

Lemma suspend_activate_then_resolve_witness :
  exec (Reachable (fst (suspendTenant (_id (acme (Str "active")))
                          [beta; acme (Str "active")])))
       (resolveTenant req_acme_services)
  = [Query (Str "acme"); ReqTenantSet (acme (Str "suspended"));
     Published {| tenantId := Some (_id (acme (Str "suspended")));
                  tenant := Some (acme (Str "suspended")) |}].
Proof.
  apply (suspend_activate_then_resolve req_acme_services
           [beta; acme (Str "active")] "acme" (acme (Str "active")));
    solve [reflexivity | discriminate].
Defined.

(** X12: getTenantInfo behind the resolver, on the directory the resolver
    read.  With the empty context it answers 200 with null data and looks
    nothing up; with the context of a tenant it looks that identifier up
    once and answers 200 with a document that carries this identifier and
    no subscription.  Its 404 branch is not taken. *)
Theorem getTenantInfo_after_resolve
  (req : Request) (directory : list Tenant) (store : Store) :
  In (Published store) (exec (Reachable directory) (resolveTenant req)) ->
  (store = emptyStore
   /\ getTenantInfo (Some store) directory
      = ([], Json 200 {| success := true; data := None;
                         note := Some "Superadmin domain - no tenant context" |}))
  \/ (exists tid doc,
         tenantId store = Some tid
         /\ getTenantInfo (Some store) directory
            = ([tid], Json 200 {| success := true; data := Some doc;
                                  note := None |})
         /\ _id doc = tid
         /\ subscription doc = None).
Proof.
  intros Hpub.
  apply published_inv in Hpub
    as [-> | [documents [t [k [Hdb [-> [_ [_ [_ [Hone _]]]]]]]]]].
  - left. split; reflexivity.
  - right. injection Hdb as <-.
    apply findOne_Some in Hone as [Hin _].
    destruct (findById_In directory t Hin) as [t' [Hfind Hid]].
    exists (_id t), (withoutSubscription t').
    unfold getTenantInfo. cbn [storeTenantId tenantId]. rewrite Hfind.
    repeat split. exact Hid.
Qed.

Lemma getTenantInfo_after_resolve_witness :
  getTenantInfo (Some acmeStore) [beta; acme (Str "active")]
  = ([_id (acme (Str "active"))],
     Json 200 {| success := true;
                 data := Some (withoutSubscription (acme (Str "active")));
                 note := None |}).
Proof.
  destruct (getTenantInfo_after_resolve req_acme_services
              [beta; acme (Str "active")] acmeStore)
    as [[Hempty _] | [tid [doc [Htid [Hreply _]]]]].
  - simpl. auto.
  - discriminate.
  - reflexivity.
Defined.

(** ** Properties of the first middleware of server.js *)

Lemma append_assoc_string (s t u : string) : (s ++ t) ++ u = s ++ (t ++ u).
Proof. induction s as [|a s IH]; simpl; [reflexivity | now rewrite IH]. Qed.

Lemma includes_append_r (needle p : string) :
  includes needle (p ++ needle) = true.
Proof. apply includes_suffix. Qed.

Lemma varyWithOrigin_mentions (existingVary : option headerValue) (v : string) :
  varyWithOrigin existingVary = Some (HString v) -> includes "Origin" v = true.
Proof.
  unfold varyWithOrigin.
  destruct (headerTruthy existingVary) eqn:Ht; cbn [negb].
  - destruct existingVary as [[w|n|items]|]; try discriminate.
    destruct (includes "Origin" w) eqn:Hinc; cbn [negb].
    + intros H. injection H as <-. exact Hinc.
    + intros H. injection H as <-.
      replace (w ++ ", Origin") with ((w ++ ", ") ++ "Origin")
        by (now rewrite append_assoc_string).
      apply includes_append_r.
  - intros H. injection H as <-. reflexivity.
Qed.

Lemma varyWithOrigin_truthy (existingVary : option headerValue) :
  headerTruthy (varyWithOrigin existingVary) = true.
Proof.
  unfold varyWithOrigin.
  destruct (headerTruthy existingVary) eqn:Ht; cbn [negb]; [|reflexivity].
  destruct existingVary as [[w|n|items]|]; try exact Ht.
  destruct (includes "Origin" w); cbn [negb]; [exact Ht|].
  simpl. destruct w; reflexivity.
Qed.

Lemma varyWithOrigin_idempotent (existingVary : option headerValue) :
  varyWithOrigin (varyWithOrigin existingVary) = varyWithOrigin existingVary.
Proof.
  pose proof (varyWithOrigin_truthy existingVary) as Ht.
  pose proof (varyWithOrigin_mentions existingVary) as Hm.
  destruct (varyWithOrigin existingVary) as [[w|n|items]|] eqn:E;
    unfold varyWithOrigin at 1; rewrite Ht; cbn [negb]; try reflexivity.
  now rewrite (Hm w eq_refl).
Qed.

(** X13: the first middleware of server.js.  Running it twice on a response
    gives the same headers as running it once, so Origin is never listed
    twice in Vary.  Cache-Control is no-store after every request.  For a
    request with an origin, Vary is set afterwards and, when it is a
    string, it mentions Origin, and Access-Control-Allow-Origin is that
    origin. *)
Theorem originSafetyNet_idempotent (origin : value) (res : ResponseHeaders) :
  originSafetyNet origin (originSafetyNet origin res) = originSafetyNet origin res
  /\ cacheControl (originSafetyNet origin res) = Some (HString "no-store")
  /\ (truthy origin = true ->
      headerTruthy (vary (originSafetyNet origin res)) = true
      /\ (forall v, vary (originSafetyNet origin res) = Some (HString v) ->
                    includes "Origin" v = true)
      /\ allowOrigin (originSafetyNet origin res) = Some (HString (stringOf origin))).
Proof.
  unfold originSafetyNet.
  destruct (truthy origin); cbn [vary allowCredentials allowOrigin cacheControl].
  - rewrite varyWithOrigin_idempotent.
    split; [reflexivity | split; [reflexivity|]].
    intros _. split; [apply varyWithOrigin_truthy|].
    split; [apply varyWithOrigin_mentions | reflexivity].
  - split; [reflexivity | split; [reflexivity | discriminate]].
Qed.

Lemma originSafetyNet_idempotent_witness :
  vary (originSafetyNet (Str "https://acme.example.com")
          {| vary := Some (HString "Accept-Encoding");
             allowCredentials := None; allowOrigin := None;
             cacheControl := None |})
  = Some (HString "Accept-Encoding, Origin")
  /\ includes "Origin" "Accept-Encoding, Origin" = true.
Proof.
  split; [reflexivity|].
  eapply (proj1 (proj2 (proj2 (proj2 (originSafetyNet_idempotent
            (Str "https://acme.example.com")
            {| vary := Some (HString "Accept-Encoding");
               allowCredentials := None; allowOrigin := None;
               cacheControl := None |})) eq_refl))).
  reflexivity.
Defined.

(** ** The reserved hosts of the resolver and of the URL builder *)

(** X14: isAdminOrLocal never throws, and every host whose name without
    port the resolver reserves for the platform is admin-or-local for the
    URL builder. *)
Theorem reserved_hosts_are_admin_or_local (hostArg : value) :
  (exists b, isAdminOrLocal hostArg = Normal b)
  /\ (forall h,
      hostArg = Str h ->
      isSuperadminDomain (index (split ":" h) 0) = true ->
      isAdminOrLocal hostArg = Normal true).
Proof.
  split.
  - unfold isAdminOrLocal.
    destruct hostArg as [| |h]; cbn [truthy negb]; eauto.
    destruct (negb (h =? "")); cbn [negb]; eauto.
    cbn [call_split JS.bind]. rewrite index_split_0.
    cbn [call_toLowerCase JS.bind]. eauto.
  - intros h -> Hres. unfold isAdminOrLocal.
    destruct (negb (truthy (Str h))); [reflexivity|].
    cbn [call_split JS.bind].
    rewrite index_split_0 in Hres |- *.
    rewrite isSuperadminDomain_reserved in Hres. apply reserved_dec in Hres.
    cbn [call_toLowerCase JS.bind].
    destruct Hres as [<- | [<- | [<- | [<- | [<- | [<- | [<- | []]]]]]]];
      reflexivity.
Qed.

Lemma reserved_hosts_are_admin_or_local_witness :
  isAdminOrLocal (Str "delxn.club:443") = Normal true.
Proof.
  apply (proj2 (reserved_hosts_are_admin_or_local (Str "delxn.club:443"))
           "delxn.club:443" eq_refl).
  reflexivity.
Defined.
